(** * Design-pattern exercises: shapes, databases, RPG equipment, task processing

    A shallow embedding of the four exercise modules

    - [1_principles/02_solid/02_ocp/starter.py]      (module [Ocp]),
    - [1_principles/02_solid/05_dip/starter.py]      (module [Dip]),
    - [2_creational/02_abstract_factory/starter.py]  (module [AbstractFactory]),
    - [4_behavioral/02_strategy/starter.py]          (module [Strategy]),

    over a small model of the Python values they compute with (module [Py]):
    unbounded ints, binary64 floats, exceptions, and strings. *)

From Stdlib Require Import ZArith String Ascii List Permutation Lia.
From Stdlib Require Import PrimFloat SpecFloat FloatOps.
From stdpp Require Import base option list strings gmap.

Set Warnings "-inexact-float".

Local Open Scope string_scope.
Local Open Scope Z_scope.

(* ===================================================================== *)
(** * Python values *)
(* ===================================================================== *)

Module Py.

(** Exceptions raised by the modelled code, with their message. *)
Inductive exn : Type :=
| ValueError (msg : string)
| KeyError (key : string)
| OverflowError (msg : string)
| ZeroDivisionError (msg : string)
| AttributeError (msg : string).

(** The outcome of evaluating an expression: a value or a raised exception. *)
Inductive result (A : Type) : Type :=
| Return (a : A)
| Raise (e : exn).
Arguments Return {A} a.
Arguments Raise {A} e.

#[export] Instance result_ret : MRet result := @Return.
#[export] Instance result_bind : MBind result := fun A B k r =>
  match r with
  | Return a => k a
  | Raise e => Raise e
  end.

(** A Python number: an arbitrary-precision [int] or a binary64 [float]. *)
Inductive pynum : Type :=
| PyInt (z : Z)
| PyFloat (f : float).

(** [m * 2^e] rounded to the nearest binary64 value, ties to even. *)
Definition round_binary64 (m e : Z) (szero : bool) : float :=
  SF2Prim (binary_normalize prec emax m e szero).

(** [float(z)] for an int [z], as CPython's [PyLong_AsDouble]: the nearest
    float, or [OverflowError] when that is beyond the largest finite float. *)
Definition float_of_int (z : Z) : result float :=
  let f := round_binary64 z 0 false in
  if is_infinity f
  then Raise (OverflowError "int too large to convert to float")
  else Return f.

(** The operand conversion of a mixed int/float operation. *)
Definition to_float (x : pynum) : result float :=
  match x with
  | PyInt z => float_of_int z
  | PyFloat f => Return f
  end.

(** [x + y] *)
Definition py_add (x y : pynum) : result pynum :=
  match x, y with
  | PyInt a, PyInt b => Return (PyInt (a + b))
  | _, _ =>
      a ← to_float x; b ← to_float y; Return (PyFloat (a + b)%float)
  end.

(** [x * y] *)
Definition py_mul (x y : pynum) : result pynum :=
  match x, y with
  | PyInt a, PyInt b => Return (PyInt (a * b))
  | _, _ =>
      a ← to_float x; b ← to_float y; Return (PyFloat (a * b)%float)
  end.

(** [a / b] for ints, as CPython's [long_true_divide]: the quotient correctly
    rounded to the nearest float.  The quotient of [|a| * 2^k] by [|b|] is
    taken with at least 55 significant bits and a sticky bit for the
    remainder, so that rounding it once more gives the nearest float. *)
Definition int_true_divide (a b : Z) : result float :=
  if b =? 0 then Raise (ZeroDivisionError "division by zero")
  else
    let neg := xorb (a <? 0) (b <? 0) in
    let k := Z.max 0 (56 + Z.log2 (Z.abs b) - Z.log2 (Z.abs a)) in
    let n := Z.abs a * 2 ^ k in
    let q := n / Z.abs b in
    let sticky := if n mod Z.abs b =? 0 then 0 else 1 in
    let m := 2 * q + sticky in
    let f := round_binary64 (if neg then - m else m) (- k - 1) neg in
    if is_infinity f
    then Raise (OverflowError "integer division result too large for a float")
    else Return f.

(** [x / y] (true division) *)
Definition py_truediv (x y : pynum) : result pynum :=
  match x, y with
  | PyInt a, PyInt b => f ← int_true_divide a b; Return (PyFloat f)
  | _, _ =>
      a ← to_float x; b ← to_float y;
      if is_zero b then Raise (ZeroDivisionError "float division by zero")
      else Return (PyFloat (a / b)%float)
  end.

Section Pow.
(** [float.__pow__] is computed by the C library's [pow], which is not
    part of the repository: it is a parameter of the model. *)
Variable float_pow : float -> float -> result float.

(** [x ** n] for an int literal [n] *)
Definition py_pow (x : pynum) (n : Z) : result pynum :=
  match x with
  | PyInt z =>
      if 0 <=? n then Return (PyInt (z ^ n))
      else a ← float_of_int z; b ← float_of_int n;
           f ← float_pow a b; Return (PyFloat f)
  | PyFloat a =>
      b ← float_of_int n; f ← float_pow a b; Return (PyFloat f)
  end.
End Pow.

(** [sum(xs)]: the items are added to the start value [0] from left to right. *)
Fixpoint sum_from (acc : pynum) (xs : list pynum) : result pynum :=
  match xs with
  | [] => Return acc
  | x :: xs' => acc' ← py_add acc x; sum_from acc' xs'
  end.

Definition sum (xs : list pynum) : result pynum := sum_from (PyInt 0) xs.

(** Truth value of a [str]: the empty string is false. *)
Definition str_truthy (s : string) : bool :=
  match s with
  | EmptyString => false
  | String _ _ => true
  end.

End Py.

Import Py.

(* ===================================================================== *)
(** * Open/Closed principle: the shape calculator *)
(* ===================================================================== *)

Module Ocp.

(** The three concrete [Shape] classes with their constructor arguments. *)
Inductive Shape : Type :=
| Circle (radius : pynum)
| Square (side : pynum)
| Triangle (base height : pynum).

Section Areas.
Variable float_pow : float -> float -> result float.

(** [Shape.calculate_area], dispatched on the class of the receiver. *)
Definition calculate_area (self : Shape) : result pynum :=
  match self with
  | Circle radius =>
      r2 ← py_pow float_pow radius 2; py_mul (PyFloat 3.14) r2
  | Square side =>
      py_pow float_pow side 2
  | Triangle base height =>
      bh ← py_mul base height; py_truediv bh (PyInt 2)
  end.

(** [AreaCalculator.total_area]: the list comprehension computes every
    area first, then [sum] adds them up. *)
Definition total_area (shapes : list Shape) : result pynum :=
  areas ← mapM calculate_area shapes; Py.sum areas.
End Areas.

(** The shapes of the module's doctest. *)
Definition doctest_shapes : list Shape :=
  [Circle (PyInt 5); Square (PyInt 4); Triangle (PyInt 3) (PyInt 4)].

(** Four squares of side [2^511], each of area [2^1022], and a unit circle,
    listed in two orders. *)
Definition squares_then_circle : list Shape :=
  [Square (PyInt (2 ^ 511)); Square (PyInt (2 ^ 511));
   Square (PyInt (2 ^ 511)); Square (PyInt (2 ^ 511)); Circle (PyInt 1)].

Definition circle_then_squares : list Shape :=
  [Circle (PyInt 1); Square (PyInt (2 ^ 511)); Square (PyInt (2 ^ 511));
   Square (PyInt (2 ^ 511)); Square (PyInt (2 ^ 511))].

End Ocp.

(* ===================================================================== *)
(** * Dependency inversion: the database abstraction *)
(* ===================================================================== *)

Module Dip.

(** The concrete [Database] classes; their instances hold no state. *)
Inductive Database : Type :=
| MySQLDatabase
| PostgreSQLDatabase.

(** [Database.connect] *)
Definition connect (self : Database) : string :=
  match self with
  | MySQLDatabase => "Connected to MySQL"
  | PostgreSQLDatabase => "Connected to PostgreSQL"
  end.

(** [Database.save]: the f-string splices the two arguments in. *)
Definition save (self : Database) (user_id name : string) : string :=
  match self with
  | MySQLDatabase => "Saved " +:+ user_id +:+ ": " +:+ name +:+ " to MySQL"
  | PostgreSQLDatabase => "Saved " +:+ user_id +:+ ": " +:+ name +:+ " to PostgreSQL"
  end.

(** The name each variant puts in its messages. *)
Definition variant_name (self : Database) : string :=
  match self with
  | MySQLDatabase => "MySQL"
  | PostgreSQLDatabase => "PostgreSQL"
  end.

Record UserService : Type := { database : Database }.

(** A line feed, the ["\n"] of the source. *)
Definition newline : string := String (ascii_of_nat 10) "".

(** [UserService.save_user] *)
Definition save_user (self : UserService) (user_id name : string) : string :=
  let r := connect (database self) +:+ newline in
  let r := r +:+ save (database self) user_id name in
  r.

End Dip.

(* ===================================================================== *)
(** * Abstract factory: RPG equipment *)
(* ===================================================================== *)

Module AbstractFactory.

(** A [str] is modelled by [string] with one [ascii] per code point, so the
    model covers the texts of code points below 256.  On that range
    [str.lower] moves [A]-[Z] and the Latin-1 capitals (192 to 222 except
    the multiplication sign 215) 32 places up and keeps every other code
    point. *)
Definition lower_char (c : ascii) : ascii :=
  let n := N_of_ascii c in
  if ((65 <=? n) && (n <=? 90)
      || (192 <=? n) && (n <=? 222) && negb (n =? 215))%N
  then ascii_of_N (n + 32)
  else c.

Fixpoint lower (s : string) : string :=
  match s with
  | EmptyString => EmptyString
  | String c s' => String (lower_char c) (lower s')
  end.

Inductive Weapon : Type := Sword | Staff | Bow.
Inductive Armor : Type := HeavyArmor | LightRobe | LeatherArmor.

(** [Weapon.damage] *)
Definition damage (self : Weapon) : Z :=
  match self with
  | Sword => 80
  | Staff => 40
  | Bow => 60
  end.

(** [Weapon.get_name]: [self.__class__.__name__] *)
Definition weapon_get_name (self : Weapon) : string :=
  match self with
  | Sword => "Sword"
  | Staff => "Staff"
  | Bow => "Bow"
  end.

(** [Armor.defense] *)
Definition defense (self : Armor) : Z :=
  match self with
  | HeavyArmor => 50
  | LightRobe => 15
  | LeatherArmor => 25
  end.

(** [Armor.get_name]: [self.__class__.__name__] *)
Definition armor_get_name (self : Armor) : string :=
  match self with
  | HeavyArmor => "HeavyArmor"
  | LightRobe => "LightRobe"
  | LeatherArmor => "LeatherArmor"
  end.

(** The concrete factory classes.  Their instances hold no state, so an
    instance is represented by its class. *)
Inductive EquipmentFactory : Type :=
| WarriorEquipmentFactory
| MageEquipmentFactory
| ArcherEquipmentFactory.

(** [type(factory).__name__] *)
Definition type_name (self : EquipmentFactory) : string :=
  match self with
  | WarriorEquipmentFactory => "WarriorEquipmentFactory"
  | MageEquipmentFactory => "MageEquipmentFactory"
  | ArcherEquipmentFactory => "ArcherEquipmentFactory"
  end.

(** [EquipmentFactory.create_weapon] *)
Definition create_weapon (self : EquipmentFactory) : Weapon :=
  match self with
  | WarriorEquipmentFactory => Sword
  | MageEquipmentFactory => Staff
  | ArcherEquipmentFactory => Bow
  end.

(** [EquipmentFactory.create_armor] *)
Definition create_armor (self : EquipmentFactory) : Armor :=
  match self with
  | WarriorEquipmentFactory => HeavyArmor
  | MageEquipmentFactory => LightRobe
  | ArcherEquipmentFactory => LeatherArmor
  end.

(** The dispatch table of [get_equipment_factory]: it maps a normalized
    class name to the factory class to instantiate. *)
Definition charclass_to_factory : gmap string EquipmentFactory :=
  {[ "warrior" := WarriorEquipmentFactory;
     "mage" := MageEquipmentFactory;
     "archer" := ArcherEquipmentFactory ]}.

(** [key in d] *)
Definition dict_contains {V} (d : gmap string V) (key : string) : bool :=
  bool_decide (is_Some (d !! key)).

(** [d[key]] *)
Definition dict_getitem {V} (d : gmap string V) (key : string) : result V :=
  match d !! key with
  | Some v => Return v
  | None => Raise (KeyError key)
  end.

(** [get_equipment_factory] *)
Definition get_equipment_factory (character_class : string)
  : result EquipmentFactory :=
  if negb (dict_contains charclass_to_factory (lower character_class))
  then Raise (ValueError ("Unknown character class: " +:+ character_class))
  else dict_getitem charclass_to_factory (lower character_class).

End AbstractFactory.

(* ===================================================================== *)
(** * Strategy: task processing *)
(* ===================================================================== *)

Module Strategy.

Inductive TaskPriority : Type := LOW | MEDIUM | HIGH | URGENT.

#[export] Instance TaskPriority_eq_dec : EqDecision TaskPriority.
Proof. solve_decision. Defined.

(** [TaskPriority.value] *)
Definition value (p : TaskPriority) : string :=
  match p with
  | LOW => "low"
  | MEDIUM => "medium"
  | HIGH => "high"
  | URGENT => "urgent"
  end.

(** A [datetime], determined by the clock reading it was made from; its
    [timestamp()] gives that reading back. *)
Record datetime : Type := { timestamp : float }.

Record WorkflowTask : Type := {
  title : string;
  priority : TaskPriority;
  description : string;
  created_at : datetime;
  completed_at : option datetime
}.

(** The environment the exercise runs in: the system clock, given by the
    sequence of its successive readings, the number of readings taken so
    far, and the [time.sleep] calls made so far, latest first. *)
Record World : Type := {
  clock : nat -> float;
  reads : nat;
  slept : list pynum
}.

(** Computations that read the clock, sleep, and may raise. *)
Definition M (A : Type) : Type := World -> result A * World.

#[export] Instance M_ret : MRet M := fun A a w => (Return a, w).
#[export] Instance M_bind : MBind M := fun A B k m w =>
  match m w with
  | (Return a, w') => k a w'
  | (Raise e, w') => (Raise e, w')
  end.

Definition raise {A} (e : exn) : M A := fun w => (Raise e, w).

Definition read_clock : M float := fun w =>
  (Return (clock w (reads w)),
   {| clock := clock w; reads := S (reads w); slept := slept w |}).

(** [time.time()] *)
Definition time_time : M float := read_clock.

(** [datetime.now()] *)
Definition datetime_now : M datetime :=
  t ← read_clock; mret {| timestamp := t |}.

(** [time.sleep(secs)] *)
Definition time_sleep (secs : pynum) : M unit := fun w =>
  (Return tt,
   {| clock := clock w; reads := reads w; slept := secs :: slept w |}).

(** [WorkflowTask.__init__] *)
Definition WorkflowTask_init (title : string) (priority : TaskPriority)
    (description : string) : M WorkflowTask :=
  now ← datetime_now;
  mret {| title := title; priority := priority; description := description;
          created_at := now; completed_at := None |}.

(** [WorkflowTask.mark_completed]: the task after the assignment. *)
Definition mark_completed (self : WorkflowTask) : M WorkflowTask :=
  now ← datetime_now;
  mret {| title := title self; priority := priority self;
          description := description self; created_at := created_at self;
          completed_at := Some now |}.

(** [task.completed_at.timestamp()]: [None] has no such method. *)
Definition completed_at_timestamp (task : WorkflowTask) : M float :=
  match completed_at task with
  | Some d => mret (timestamp d)
  | None =>
      raise (AttributeError "'NoneType' object has no attribute 'timestamp'")
  end.

(** The values stored in a result dictionary. *)
Inductive pyval : Type :=
| VStr (s : string)
| VFloat (f : float)
| VBool (b : bool).

(** The dictionary every [process_task] returns. *)
Definition result_dict (status : string) (processing_time : float)
    (strategy_used : string) (validation_passed : bool) : gmap string pyval :=
  {[ "status" := VStr status;
     "processing_time" := VFloat processing_time;
     "strategy_used" := VStr strategy_used;
     "validation_passed" := VBool validation_passed ]}.

(** [UrgentTaskProcessor.process_task]: the dictionary and the task as the
    call leaves it. *)
Definition Urgent_process_task (task : WorkflowTask)
  : M (gmap string pyval * WorkflowTask) :=
  start_time ← time_time;
  let validation_passed := true in
  let validation_passed :=
    if bool_decide (priority task ≠ URGENT) then false else validation_passed in
  let validation_passed :=
    if negb (str_truthy (description task)) then false else validation_passed in
  task ← mark_completed task;
  completed ← completed_at_timestamp task;
  let processing_time := (completed - start_time)%float in
  mret (result_dict "completed" processing_time "urgent" validation_passed,
        task).

(** [StandardTaskProcessor.process_task] *)
Definition Standard_process_task (task : WorkflowTask)
  : M (gmap string pyval * WorkflowTask) :=
  start_time ← time_time;
  let validation_passed := true in
  let validation_passed :=
    if (String.length (title task) <? 3)%nat then false else validation_passed in
  _ ← time_sleep (PyInt 1);
  task ← mark_completed task;
  completed ← completed_at_timestamp task;
  let processing_time := (completed - start_time)%float in
  mret (result_dict "completed" processing_time "standard" validation_passed,
        task).

(** [BackgroundTaskProcessor.process_task] *)
Definition Background_process_task (task : WorkflowTask)
  : M (gmap string pyval * WorkflowTask) :=
  start_time ← time_time;
  let validation_passed := true in
  let validation_passed :=
    if bool_decide (priority task = URGENT) then false else validation_passed in
  _ ← time_sleep (PyFloat 0.1);
  task ← mark_completed task;
  completed ← completed_at_timestamp task;
  let processing_time := (completed - start_time)%float in
  mret (result_dict "completed" processing_time "background" validation_passed,
        task).

(** The concrete [TaskProcessor] classes; their instances hold no state. *)
Inductive TaskProcessor : Type :=
| UrgentTaskProcessor
| StandardTaskProcessor
| BackgroundTaskProcessor.

(** [TaskProcessor.process_task], dispatched on the class of the receiver. *)
Definition process_task (self : TaskProcessor) (task : WorkflowTask)
  : M (gmap string pyval * WorkflowTask) :=
  match self with
  | UrgentTaskProcessor => Urgent_process_task task
  | StandardTaskProcessor => Standard_process_task task
  | BackgroundTaskProcessor => Background_process_task task
  end.

Record TaskManager : Type := { strategy : option TaskProcessor }.

(** [TaskManager.__init__], whose argument defaults to [None]. *)
Definition TaskManager_init (strategy : option TaskProcessor) : TaskManager :=
  {| strategy := strategy |}.

(** [TaskManager.set_strategy]: the manager after the assignment. *)
Definition set_strategy (self : TaskManager) (strategy : TaskProcessor)
  : TaskManager :=
  {| strategy := Some strategy |}.

(** [TaskManager.execute_task] *)
Definition execute_task (self : TaskManager) (task : WorkflowTask)
  : M (gmap string pyval * WorkflowTask) :=
  match strategy self with
  | None => raise (ValueError "No strategy set")
  | Some s => process_task s task
  end.

(** Client code working on one task: direct calls of [mark_completed] and
    processing by some strategy. *)
Inductive task_op : Type :=
| OpMarkCompleted
| OpProcess (p : TaskProcessor).

Definition run_op (o : task_op) (task : WorkflowTask) : M WorkflowTask :=
  match o with
  | OpMarkCompleted => mark_completed task
  | OpProcess p => r ← process_task p task; mret (snd r)
  end.

Fixpoint run_ops (ops : list task_op) (task : WorkflowTask) : M WorkflowTask :=
  match ops with
  | [] => mret task
  | o :: ops' => task' ← run_op o task; run_ops ops' task'
  end.

(** The tag each strategy reports as [strategy_used]. *)
Definition strategy_tag (p : TaskProcessor) : string :=
  match p with
  | UrgentTaskProcessor => "urgent"
  | StandardTaskProcessor => "standard"
  | BackgroundTaskProcessor => "background"
  end.

(** The validation rule of each strategy, as its instructions word it. *)
Definition validation (p : TaskProcessor) (task : WorkflowTask) : bool :=
  match p with
  | UrgentTaskProcessor =>
      bool_decide (priority task = URGENT) && str_truthy (description task)
  | StandardTaskProcessor => (3 <=? String.length (title task))%nat
  | BackgroundTaskProcessor => negb (bool_decide (priority task = URGENT))
  end.

(** The simulated delay of each strategy, as the [time.sleep] calls it makes. *)
Definition delay (p : TaskProcessor) : list pynum :=
  match p with
  | UrgentTaskProcessor => []
  | StandardTaskProcessor => [PyInt 1]
  | BackgroundTaskProcessor => [PyFloat 0.1]
  end.

(** [task] with its completion time set to the clock reading [t]. *)
Definition completed (task : WorkflowTask) (t : float) : WorkflowTask :=
  {| title := title task; priority := priority task;
     description := description task; created_at := created_at task;
     completed_at := Some {| timestamp := t |} |}.

(** A clock whose reading number [n] is [n] seconds, after its reading
    number 0, and the tasks of the module's doctest, created at that
    reading. *)
Definition sample_world : World :=
  {| clock := fun n => round_binary64 (Z.of_nat n) 0 false;
     reads := 1; slept := [] |}.

Definition urgent_task : WorkflowTask :=
  {| title := "Security breach"; priority := URGENT;
     description := "Critical fix needed";
     created_at := {| timestamp := 0 |}; completed_at := None |}.

Definition low_task : WorkflowTask :=
  {| title := "Update docs"; priority := LOW;
     description := "Documentation update";
     created_at := {| timestamp := 0 |}; completed_at := None |}.

End Strategy.

(* ===================================================================== *)
(** * Properties of the shape calculator *)
(* ===================================================================== *)

Module OcpFacts.
Import Ocp.

Example float_of_int_25 : float_of_int 25 = Return 25%float.
Proof. vm_compute. reflexivity. Qed.

Example int_true_divide_third :
  int_true_divide 1 3 = Return 0.3333333333333333%float.
Proof. vm_compute. reflexivity. Qed.

Example int_true_divide_negative : int_true_divide (-7) 2 = Return (-3.5)%float.
Proof. vm_compute. reflexivity. Qed.

Example int_true_divide_huge : int_true_divide (10 ^ 400) (10 ^ 399) = Return 10%float.
Proof. vm_compute. reflexivity. Qed.

Example int_true_divide_overflow :
  int_true_divide (2 ^ 1025) 2
  = Raise (OverflowError "integer division result too large for a float").
Proof. vm_compute. reflexivity. Qed.

Lemma sum_from_ints (acc : Z) (zs : list Z) :
  sum_from (PyInt acc) (PyInt <$> zs) = Return (PyInt (acc + foldr Z.add 0 zs)).
Proof.
  revert acc. induction zs as [|z zs IH]; intros acc; simpl.
  - f_equal. f_equal. lia.
  - change (sum_from (PyInt (acc + z)) (PyInt <$> zs)
            = Return (PyInt (acc + (z + foldr Z.add 0 zs)))).
    rewrite IH. f_equal. f_equal. lia.
Qed.

Lemma foldr_add_perm (zs zs' : list Z) :
  Permutation zs zs' -> foldr Z.add 0 zs = foldr Z.add 0 zs'.
Proof.
  induction 1 as [|z l l' _ IH|y z l|l l' l'' _ IH1 _ IH2]; simpl.
  - reflexivity.
  - now rewrite IH.
  - lia.
  - now rewrite IH1.
Qed.

Section Areas.
Variable float_pow : float -> float -> result float.

Lemma mapM_areas (shapes : list Shape) (areas : list pynum) :
  Forall2 (fun s a => calculate_area float_pow s = Return a) shapes areas ->
  mapM (calculate_area float_pow) shapes = Return areas.
Proof.
  induction 1 as [|s a shapes areas Hs _ IH]; [reflexivity|].
  cbn. rewrite Hs. cbn. rewrite IH. reflexivity.
Qed.

Lemma total_area_sum (shapes : list Shape) (areas : list pynum) :
  Forall2 (fun s a => calculate_area float_pow s = Return a) shapes areas ->
  total_area float_pow shapes = Py.sum areas.
Proof.
  intros H. unfold total_area. rewrite (mapM_areas _ _ H). reflexivity.
Qed.

Lemma total_area_ints (shapes : list Shape) (zs : list Z) :
  Forall2 (fun s z => calculate_area float_pow s = Return (PyInt z)) shapes zs ->
  total_area float_pow shapes = Return (PyInt (foldr Z.add 0 zs)).
Proof.
  intros H. rewrite (total_area_sum shapes (PyInt <$> zs)).
  - unfold Py.sum. now rewrite sum_from_ints.
  - clear -H. induction H; constructor; assumption.
Qed.

(** C3 (as amended): [total_area] returns what [sum] gives on the list of
    the individual [calculate_area] results; for every finite list of
    shapes whose results are all ints this is exactly their arithmetic
    sum, and every permutation of the list has the same total. *)
Theorem total_area_int_sum (shapes : list Shape) :
  (forall areas : list pynum,
     Forall2 (fun s a => calculate_area float_pow s = Return a) shapes areas ->
     total_area float_pow shapes = Py.sum areas)
  /\ (forall zs : list Z,
       Forall2 (fun s z => calculate_area float_pow s = Return (PyInt z))
         shapes zs ->
       total_area float_pow shapes = Return (PyInt (foldr Z.add 0 zs))
       /\ forall shapes', Permutation shapes shapes' ->
            total_area float_pow shapes' = total_area float_pow shapes).
Proof.
  split; [apply total_area_sum|].
  intros zs H. split; [now apply total_area_ints|].
  intros shapes' Hperm.
  destruct (Permutation_Forall2 Hperm H) as (zs' & Hzs & H').
  rewrite (total_area_ints _ _ H), (total_area_ints _ _ H').
  now rewrite (foldr_add_perm _ _ Hzs).
Qed.

(** C8: the doctest values: [Circle(5)] has area [78.5], [Square(4)] has
    area [16], [Triangle(3, 4)] has area [6.0], and the total over the
    three is [100.5]. *)
Theorem doctest_areas :
  calculate_area float_pow (Circle (PyInt 5)) = Return (PyFloat 78.5)
  /\ calculate_area float_pow (Square (PyInt 4)) = Return (PyInt 16)
  /\ calculate_area float_pow (Triangle (PyInt 3) (PyInt 4))
     = Return (PyFloat 6.0)
  /\ total_area float_pow doctest_shapes = Return (PyFloat 100.5).
Proof. repeat split; vm_compute; reflexivity. Qed.

(** C10: over the empty list [total_area] returns the int [0], and raises
    nothing. *)
Theorem total_area_empty : total_area float_pow [] = Return (PyInt 0).
Proof. reflexivity. Qed.
End Areas.

(** C3 (counterexample): the two lists hold the same shapes, yet
    [total_area] raises [OverflowError] on one and returns [inf] on the
    other: the int partial sum [2^1024] cannot be converted for the last
    addition, while the float partial sums overflow silently. *)
Lemma total_area_depends_on_order :
  Permutation squares_then_circle circle_then_squares
  /\ (forall float_pow, total_area float_pow squares_then_circle
        = Raise (OverflowError "int too large to convert to float"))
  /\ (forall float_pow, total_area float_pow circle_then_squares
        = Return (PyFloat infinity)).
Proof.
  split; [|split; intros fp; vm_compute; reflexivity].
  exact (Permutation_app_comm (replicate 4 (Square (PyInt (2 ^ 511))))
           [Circle (PyInt 1)]).
Qed.

(** C3 (witness): two squares with int sides, in both orders. *)
Lemma total_area_int_sum_witness :
  total_area (fun a _ => Return (a * a)%float) [Square (PyInt 3); Square (PyInt 4)]
    = Return (PyInt 25)
  /\ total_area (fun a _ => Return (a * a)%float) [Square (PyInt 4); Square (PyInt 3)]
    = total_area (fun a _ => Return (a * a)%float) [Square (PyInt 3); Square (PyInt 4)].
Proof.
  destruct (proj2 (total_area_int_sum (fun a _ => Return (a * a)%float)
                     [Square (PyInt 3); Square (PyInt 4)]) [9; 16])
    as [Hsum Hperm].
  - repeat constructor.
  - split; [exact Hsum|]. apply Hperm. apply perm_swap.
Defined.

End OcpFacts.

(* ===================================================================== *)
(** * Properties of the database variants *)
(* ===================================================================== *)

Module DipFacts.
Import Dip.

(** C9: for both database variants and all strings [key] and [value],
    [connect] returns ["Connected to <Variant>"] and [save key value]
    returns ["Saved <key>: <value> to <Variant>"], the variant being
    ["MySQL"] or ["PostgreSQL"]. *)
Theorem database_messages (V : Database) (key value : string) :
  connect V = "Connected to " +:+ variant_name V
  /\ save V key value
     = "Saved " +:+ key +:+ ": " +:+ value +:+ " to " +:+ variant_name V.
Proof. destruct V; split; reflexivity. Qed.

Example mysql_doctest :
  connect MySQLDatabase = "Connected to MySQL"
  /\ save MySQLDatabase "user123" "Alice" = "Saved user123: Alice to MySQL".
Proof. split; reflexivity. Qed.

Example save_user_doctest :
  save_user {| database := MySQLDatabase |} "user1" "Bob"
  = "Connected to MySQL" +:+ newline +:+ "Saved user1: Bob to MySQL".
Proof. reflexivity. Qed.

End DipFacts.

(* ===================================================================== *)
(** * Properties of the equipment factory selector *)
(* ===================================================================== *)

Module AbstractFactoryFacts.
Import AbstractFactory.

Lemma lookup_charclass (key : string) :
  charclass_to_factory !! key
  = if decide (key = "warrior") then Some WarriorEquipmentFactory
    else if decide (key = "mage") then Some MageEquipmentFactory
    else if decide (key = "archer") then Some ArcherEquipmentFactory
    else None.
Proof.
  unfold charclass_to_factory.
  repeat (rewrite lookup_insert; case_decide; subst; [reflexivity|]).
  rewrite lookup_singleton. repeat case_decide; congruence.
Qed.

(** What the selector does, by cases on the normalized name. *)
Lemma get_equipment_factory_cases (s : string) :
  get_equipment_factory s
  = if decide (lower s = "warrior") then Return WarriorEquipmentFactory
    else if decide (lower s = "mage") then Return MageEquipmentFactory
    else if decide (lower s = "archer") then Return ArcherEquipmentFactory
    else Raise (ValueError ("Unknown character class: " +:+ s)).
Proof.
  unfold get_equipment_factory, dict_contains, dict_getitem.
  rewrite lookup_charclass.
  repeat (case_decide; [reflexivity|]). reflexivity.
Qed.

(** C1: when the lower-cased [s] is none of ["warrior"], ["mage"],
    ["archer"], [get_equipment_factory s] raises [ValueError] with the
    message ["Unknown character class: "] followed by [s] as given; when
    it is one of the three, the call returns that class's factory. *)
Theorem get_equipment_factory_unknown (s : string) :
  (lower s ≠ "warrior" -> lower s ≠ "mage" -> lower s ≠ "archer" ->
   get_equipment_factory s
   = Raise (ValueError ("Unknown character class: " +:+ s)))
  /\ (lower s = "warrior" ->
      get_equipment_factory s = Return WarriorEquipmentFactory)
  /\ (lower s = "mage" ->
      get_equipment_factory s = Return MageEquipmentFactory)
  /\ (lower s = "archer" ->
      get_equipment_factory s = Return ArcherEquipmentFactory).
Proof.
  rewrite get_equipment_factory_cases.
  repeat split; intros; repeat case_decide; congruence.
Qed.

(** C1 (witness): the doctest's ["invalid"], and ["MAGE"]. *)
Lemma get_equipment_factory_unknown_witness :
  get_equipment_factory "invalid"
  = Raise (ValueError "Unknown character class: invalid")
  /\ get_equipment_factory "MAGE" = Return MageEquipmentFactory.
Proof.
  split.
  - apply (proj1 (get_equipment_factory_unknown "invalid")); discriminate.
  - apply (proj1 (proj2 (proj2 (get_equipment_factory_unknown "MAGE")))).
    reflexivity.
Defined.

(** C2: two names with the same lower-cased form either both fail or both
    return a factory of the same class; ["WARRIOR"] and ["warrior"] both
    give the warrior family. *)
Theorem get_equipment_factory_case_insensitive :
  (forall s1 s2 : string, lower s1 = lower s2 ->
     (exists e1 e2, get_equipment_factory s1 = Raise e1
                    /\ get_equipment_factory s2 = Raise e2)
     \/ (exists f1 f2, get_equipment_factory s1 = Return f1
                       /\ get_equipment_factory s2 = Return f2
                       /\ type_name f1 = type_name f2))
  /\ get_equipment_factory "WARRIOR" = Return WarriorEquipmentFactory
  /\ get_equipment_factory "warrior" = Return WarriorEquipmentFactory.
Proof.
  split; [|split; reflexivity].
  intros s1 s2 Heq. rewrite !get_equipment_factory_cases, Heq.
  repeat case_decide; eauto 8.
Qed.

(** C2 (witness): ["Mage"] and ["mAGE"]. *)
Lemma get_equipment_factory_case_insensitive_witness :
  (exists e1 e2, get_equipment_factory "Mage" = Raise e1
                 /\ get_equipment_factory "mAGE" = Raise e2)
  \/ (exists f1 f2, get_equipment_factory "Mage" = Return f1
                    /\ get_equipment_factory "mAGE" = Return f2
                    /\ type_name f1 = type_name f2).
Proof.
  apply (proj1 get_equipment_factory_case_insensitive "Mage" "mAGE").
  reflexivity.
Defined.

Example lower_latin1 :
  lower (String (ascii_of_nat 201) "COLE") = String (ascii_of_nat 233) "cole".
Proof. reflexivity. Qed.

Example warrior_doctest :
  (factory ← get_equipment_factory "warrior";
   mret (damage (create_weapon factory), weapon_get_name (create_weapon factory)))
  = Return (80, "Sword").
Proof. reflexivity. Qed.

End AbstractFactoryFacts.

(* ===================================================================== *)
(** * Properties of the task-processing strategies *)
(* ===================================================================== *)

Module StrategyFacts.
Import Strategy.

Section ResultDict.
Variables (status : string) (processing_time : float).
Variables (strategy_used : string) (validation_passed : bool).

Lemma result_dict_status :
  result_dict status processing_time strategy_used validation_passed
    !! "status" = Some (VStr status).
Proof. reflexivity. Qed.

Lemma result_dict_processing_time :
  result_dict status processing_time strategy_used validation_passed
    !! "processing_time" = Some (VFloat processing_time).
Proof. reflexivity. Qed.

Lemma result_dict_strategy_used :
  result_dict status processing_time strategy_used validation_passed
    !! "strategy_used" = Some (VStr strategy_used).
Proof. reflexivity. Qed.

Lemma result_dict_validation_passed :
  result_dict status processing_time strategy_used validation_passed
    !! "validation_passed" = Some (VBool validation_passed).
Proof. reflexivity. Qed.
End ResultDict.

Ltac run_M :=
  unfold process_task, Urgent_process_task, Standard_process_task,
    Background_process_task, mark_completed, completed_at_timestamp,
    datetime_now, time_time, time_sleep, read_clock, raise;
  unfold mbind, mret, M_bind, M_ret; cbn.

(** Every strategy runs the same course: two clock readings, its own
    delay between them, and the same dictionary shape. *)
Lemma process_task_run (p : TaskProcessor) (task : WorkflowTask) (w : World) :
  process_task p task w
  = (Return (result_dict "completed"
               (clock w (S (reads w)) - clock w (reads w))%float
               (strategy_tag p) (validation p task),
             completed task (clock w (S (reads w)))),
     {| clock := clock w; reads := S (S (reads w));
        slept := delay p ++ slept w |}).
Proof.
  destruct p; run_M; unfold completed.
  - destruct (description task); repeat case_bool_decide;
      first [reflexivity | congruence].
  - destruct (String.length (title task)) as [|[|[|n]]]; reflexivity.
  - case_bool_decide; reflexivity.
Qed.

Lemma mark_completed_run (task : WorkflowTask) (w : World) :
  mark_completed task w
  = (Return (completed task (clock w (reads w))),
     {| clock := clock w; reads := S (reads w); slept := slept w |}).
Proof. reflexivity. Qed.

Lemma completed_completed (task : WorkflowTask) (t t' : float) :
  completed (completed task t) t' = completed task t'.
Proof. reflexivity. Qed.

(** One operation: it succeeds and stamps the task with a clock reading
    taken while it runs. *)
Lemma run_op_run (o : task_op) (task : WorkflowTask) (w : World) :
  exists n w',
    run_op o task w = (Return (completed task (clock w n)), w')
    /\ clock w' = clock w /\ (reads w <= n < reads w')%nat.
Proof.
  destruct o as [|p]; unfold run_op.
  - rewrite mark_completed_run. eexists _, _. split; [reflexivity|].
    cbn. split; [reflexivity|lia].
  - unfold mbind, M_bind. rewrite process_task_run. eexists _, _.
    split; [reflexivity|]. cbn. split; [reflexivity|lia].
Qed.

(** A non-empty sequence of operations: it succeeds and leaves the stamp
    of a reading taken while it runs. *)
Lemma run_ops_run (o : task_op) (ops : list task_op)
    (task : WorkflowTask) (w : World) :
  exists n w',
    run_ops (o :: ops) task w = (Return (completed task (clock w n)), w')
    /\ clock w' = clock w /\ (reads w <= n < reads w')%nat.
Proof.
  revert o task w. induction ops as [|o' ops IH]; intros o task w.
  - destruct (run_op_run o task w) as (n & w' & Hrun & Hc & Hn).
    exists n, w'. cbn. unfold mbind, M_bind. rewrite Hrun. auto.
  - destruct (run_op_run o task w) as (n & w' & Hrun & Hc & Hn).
    destruct (IH o' (completed task (clock w n)) w')
      as (n' & w'' & Hrun' & Hc' & Hn').
    exists n', w''. split; [|split; [congruence|lia]].
    change (run_ops (o :: o' :: ops) task w)
      with (M_bind _ _ (run_ops (o' :: ops)) (run_op o task) w).
    unfold M_bind at 1. rewrite Hrun, Hrun', completed_completed, Hc.
    reflexivity.
Qed.

(** The module's doctest: an urgent task through a manager built with the
    urgent strategy, then a low task after rebinding to the background
    strategy. *)
Example manager_doctest :
  let run : M (option pyval * option pyval) :=
    let manager := TaskManager_init (Some UrgentTaskProcessor) in
    task ← WorkflowTask_init "Security breach" URGENT "Critical fix needed";
    r1 ← execute_task manager task;
    let manager := set_strategy manager BackgroundTaskProcessor in
    task ← WorkflowTask_init "Update docs" LOW "Documentation update";
    r2 ← execute_task manager task;
    mret (r1.1 !! "status", r2.1 !! "strategy_used") in
  fst (run sample_world)
  = Return (Some (VStr "completed"), Some (VStr "background")).
Proof. vm_compute. reflexivity. Qed.

(** C4: with no strategy bound, [execute_task] raises
    [ValueError("No strategy set")] and touches nothing; once
    [set_strategy p] has run on the manager, [execute_task] returns a
    dictionary whose [strategy_used] is the tag of [p]. *)
Theorem execute_task_needs_strategy (task : WorkflowTask) (w : World) :
  execute_task (TaskManager_init None) task w
  = (Raise (ValueError "No strategy set"), w)
  /\ forall (m : TaskManager) (p : TaskProcessor),
       exists d task' w',
         execute_task (set_strategy m p) task w = (Return (d, task'), w')
         /\ d !! "strategy_used" = Some (VStr (strategy_tag p)).
Proof.
  split; [reflexivity|]. intros m p. unfold execute_task, set_strategy. cbn.
  rewrite process_task_run. eexists _, _, _. split; [reflexivity|].
  apply result_dict_strategy_used.
Qed.

(** C5 (counterexample): a second [mark_completed] replaces the
    completion time of the first, and so does processing the task with a
    second processor. *)
Lemma completed_at_overwritten :
  fst (run_ops [OpMarkCompleted] low_task sample_world)
  = Return (completed low_task 1)
  /\ fst (run_ops [OpMarkCompleted; OpMarkCompleted] low_task sample_world)
     = Return (completed low_task 2)
  /\ fst (run_ops [OpProcess UrgentTaskProcessor] low_task sample_world)
     = Return (completed low_task 2)
  /\ fst (run_ops [OpProcess UrgentTaskProcessor;
                   OpProcess BackgroundTaskProcessor] low_task sample_world)
     = Return (completed low_task 4)
  /\ completed_at (completed low_task 1) ≠ completed_at (completed low_task 2)
  /\ completed_at (completed low_task 2) ≠ completed_at (completed low_task 4).
Proof.
  repeat split; try (vm_compute; reflexivity);
    intros H; apply (f_equal (fun o => match o with
                                       | Some d => (timestamp d =? 2)%float
                                       | None => false
                                       end)) in H;
    vm_compute in H; discriminate H.
Qed.

(** C5 (as amended): every sequence of [mark_completed] and [process_task]
    calls on a task runs through; a completion time that is set is never
    unset by it; and every single call, whatever the state of the task,
    sets the completion time to a clock reading taken during that call. *)
Theorem completed_at_never_unset (ops : list task_op) (task : WorkflowTask)
    (w : World) :
  (exists task' w',
     run_ops ops task w = (Return task', w')
     /\ (is_Some (completed_at task) -> is_Some (completed_at task')))
  /\ (forall o : task_op, exists task' w' n,
        run_op o task w = (Return task', w')
        /\ (reads w <= n < reads w')%nat
        /\ completed_at task' = Some {| timestamp := clock w n |}).
Proof.
  split.
  - destruct ops as [|o ops].
    + exists task, w. split; [reflexivity|auto].
    + destruct (run_ops_run o ops task w) as (n & w' & Hrun & _ & _).
      eexists _, w'. split; [exact Hrun|]. intros _. cbn. eauto.
  - intros o. destruct (run_op_run o task w) as (n & w' & Hrun & _ & Hn).
    eexists _, w', n. split; [exact Hrun|]. split; [exact Hn|reflexivity].
Qed.

(** C5 (witness): a completed task, marked and processed once more. *)
Lemma completed_at_never_unset_witness :
  exists task' w',
    run_ops [OpMarkCompleted; OpProcess StandardTaskProcessor]
      (completed urgent_task 1) sample_world = (Return task', w')
    /\ is_Some (completed_at task').
Proof.
  destruct (proj1 (completed_at_never_unset
                     [OpMarkCompleted; OpProcess StandardTaskProcessor]
                     (completed urgent_task 1) sample_world))
    as (task' & w' & Hrun & Hset).
  exists task', w'. split; [exact Hrun|]. apply Hset. cbn. eauto.
Defined.

(** C6: whatever the task and whichever of the three processors,
    [process_task] raises nothing: it returns a dictionary with [status]
    ["completed"] and a boolean [validation_passed], and leaves the task
    with its completion time set. *)
Theorem process_task_always_completes (p : TaskProcessor)
    (task : WorkflowTask) (w : World) :
  exists d task' w',
    process_task p task w = (Return (d, task'), w')
    /\ d !! "status" = Some (VStr "completed")
    /\ d !! "validation_passed" = Some (VBool (validation p task))
    /\ is_Some (completed_at task').
Proof.
  rewrite process_task_run. eexists _, _, _. split; [reflexivity|].
  split; [apply result_dict_status|].
  split; [apply result_dict_validation_passed|]. cbn. eauto.
Qed.

Example urgent_rejects_low_task_but_completes :
  exists d task' w',
    process_task UrgentTaskProcessor low_task sample_world = (Return (d, task'), w')
    /\ d !! "validation_passed" = Some (VBool false)
    /\ d !! "status" = Some (VStr "completed")
    /\ completed_at task' = Some {| timestamp := 2 |}.
Proof.
  rewrite process_task_run. eexists _, _, _. split; [reflexivity|].
  repeat split.
Qed.

(** C7: [UrgentTaskProcessor.process_task] reports [validation_passed]
    [True] exactly when the priority is [URGENT] and the description is
    not empty, and then [status] is ["completed"]. *)
Theorem urgent_validation_passed (task : WorkflowTask) (w : World) :
  exists d task' w',
    process_task UrgentTaskProcessor task w = (Return (d, task'), w')
    /\ (d !! "validation_passed" = Some (VBool true)
        <-> priority task = URGENT /\ description task ≠ "")
    /\ (d !! "validation_passed" = Some (VBool true)
        -> d !! "status" = Some (VStr "completed")).
Proof.
  rewrite process_task_run. eexists _, _, _. split; [reflexivity|].
  rewrite result_dict_validation_passed, result_dict_status.
  split; [|reflexivity]. cbn.
  destruct (description task) as [|c s]; case_bool_decide; cbn;
    (split; [intros H'; try discriminate H'; split; congruence
            |intros [Hp Hd]; congruence]).
Qed.

(** C7 (witness): the urgent task of the doctest. *)
Lemma urgent_validation_passed_witness :
  exists d task' w',
    process_task UrgentTaskProcessor urgent_task sample_world
    = (Return (d, task'), w')
    /\ d !! "validation_passed" = Some (VBool true)
    /\ d !! "status" = Some (VStr "completed").
Proof.
  destruct (urgent_validation_passed urgent_task sample_world)
    as (d & task' & w' & Hrun & Hiff & Hstatus).
  assert (d !! "validation_passed" = Some (VBool true)) as Hv.
  { apply Hiff. split; [reflexivity|discriminate]. }
  exists d, task', w'. auto.
Defined.

End StrategyFacts.

(* ===================================================================== *)
(** * Further properties of the task-processing strategies *)
(* ===================================================================== *)

Module StrategyMore.
Import Strategy StrategyFacts.

Lemma validation_passed_true (p : TaskProcessor) (task : WorkflowTask)
    (t : float) (s : string) :
  result_dict "completed" t s (validation p task) !! "validation_passed"
  = Some (VBool true) <-> validation p task = true.
Proof.
  rewrite result_dict_validation_passed. split; intros H; [|now rewrite H].
  now injection H.
Qed.

(** X1: [StandardTaskProcessor.process_task] reports [validation_passed]
    [True] exactly when the title has at least three characters. *)
Theorem standard_validation_passed (task : WorkflowTask) (w : World) :
  exists d task' w',
    process_task StandardTaskProcessor task w = (Return (d, task'), w')
    /\ (d !! "validation_passed" = Some (VBool true)
        <-> (3 <= String.length (title task))%nat).
Proof.
  rewrite process_task_run. eexists _, _, _. split; [reflexivity|].
  rewrite validation_passed_true. cbn -[Nat.leb]. apply Nat.leb_le.
Qed.

(** X2: [BackgroundTaskProcessor.process_task] reports [validation_passed]
    [True] exactly when the priority is not [URGENT]. *)
Theorem background_validation_passed (task : WorkflowTask) (w : World) :
  exists d task' w',
    process_task BackgroundTaskProcessor task w = (Return (d, task'), w')
    /\ (d !! "validation_passed" = Some (VBool true)
        <-> priority task ≠ URGENT).
Proof.
  rewrite process_task_run. eexists _, _, _. split; [reflexivity|].
  rewrite validation_passed_true. cbn. case_bool_decide; cbn; split;
    congruence.
Qed.

(** X3: no task passes the validation of both the urgent and the
    background strategy; a task with a non-empty description passes
    exactly one of the two. *)
Theorem urgent_background_exclusive (task : WorkflowTask) (w1 w2 : World)
    (d1 d2 : gmap string pyval) (t1 t2 : WorkflowTask) (w1' w2' : World) :
  process_task UrgentTaskProcessor task w1 = (Return (d1, t1), w1') ->
  process_task BackgroundTaskProcessor task w2 = (Return (d2, t2), w2') ->
  (d1 !! "validation_passed" = Some (VBool true) ->
   d2 !! "validation_passed" = Some (VBool false))
  /\ (description task ≠ "" ->
      d2 !! "validation_passed" = Some (VBool false) ->
      d1 !! "validation_passed" = Some (VBool true)).
Proof.
  rewrite !process_task_run. intros [= <- _ _] [= <- _ _].
  rewrite !result_dict_validation_passed. cbn.
  destruct (description task); case_bool_decide; cbn; split; congruence.
Qed.

(** X3 (witness): the urgent task of the doctest. *)
Lemma urgent_background_exclusive_witness :
  exists d1 d2,
    fst (process_task UrgentTaskProcessor urgent_task sample_world)
      = Return (d1, completed urgent_task 2)
    /\ fst (process_task BackgroundTaskProcessor urgent_task sample_world)
      = Return (d2, completed urgent_task 2)
    /\ d1 !! "validation_passed" = Some (VBool true)
    /\ d2 !! "validation_passed" = Some (VBool false).
Proof.
  destruct (process_task UrgentTaskProcessor urgent_task sample_world)
    as [[[d1 t1]|e1] w1'] eqn:H1; [|rewrite process_task_run in H1; discriminate H1].
  destruct (process_task BackgroundTaskProcessor urgent_task sample_world)
    as [[[d2 t2]|e2] w2'] eqn:H2; [|rewrite process_task_run in H2; discriminate H2].
  destruct (urgent_background_exclusive _ _ _ _ _ _ _ _ _ H1 H2) as [Hub _].
  rewrite process_task_run in H1, H2.
  injection H1 as <- <- _. injection H2 as <- <- _.
  eexists _, _. split; [reflexivity|]. split; [reflexivity|].
  split; [reflexivity|]. apply Hub. reflexivity.
Defined.

(** X4: no sequence of [mark_completed] and [process_task] calls touches
    a task's title, priority, description or creation time: only the
    completion time changes. *)
Theorem run_ops_keeps_request (ops : list task_op) (task task' : WorkflowTask)
    (w w' : World) :
  run_ops ops task w = (Return task', w') ->
  title task' = title task /\ priority task' = priority task
  /\ description task' = description task
  /\ created_at task' = created_at task.
Proof.
  destruct ops as [|o ops].
  - intros [= <- _]. auto.
  - destruct (run_ops_run o ops task w) as (n & w'' & -> & _ & _).
    intros [= <- _]. auto.
Qed.

(** X4 (witness): the low task, processed twice and marked once. *)
Lemma run_ops_keeps_request_witness :
  title (completed low_task 5) = title low_task
  /\ priority (completed low_task 5) = priority low_task
  /\ description (completed low_task 5) = description low_task
  /\ created_at (completed low_task 5) = created_at low_task.
Proof.
  apply (run_ops_keeps_request
           [OpProcess StandardTaskProcessor; OpMarkCompleted;
            OpProcess UrgentTaskProcessor]
           low_task (completed low_task 5) sample_world
           {| clock := clock sample_world; reads := 6;
              slept := [PyInt 1] |}).
  reflexivity.
Defined.

(** X5: whichever processor runs, the dictionary it returns has exactly
    the four keys [status], [processing_time], [strategy_used] and
    [validation_passed]. *)
Theorem process_task_keys (p : TaskProcessor) (task : WorkflowTask)
    (w : World) :
  exists d task' w',
    process_task p task w = (Return (d, task'), w')
    /\ dom d = ({[ "status"; "processing_time"; "strategy_used";
                   "validation_passed" ]} : gset string).
Proof.
  rewrite process_task_run. eexists _, _, _. split; [reflexivity|].
  unfold result_dict. rewrite !dom_insert_L, dom_singleton_L. set_solver.
Qed.

(** X6: every processor reads the clock exactly twice and leaves it as it
    is; the urgent one never sleeps, the standard one sleeps once for [1]
    second and the background one once for [0.1] second. *)
Theorem process_task_footprint (task : WorkflowTask) (w : World) :
  (exists r w', process_task UrgentTaskProcessor task w = (Return r, w')
     /\ clock w' = clock w /\ reads w' = S (S (reads w))
     /\ slept w' = slept w)
  /\ (exists r w', process_task StandardTaskProcessor task w = (Return r, w')
        /\ clock w' = clock w /\ reads w' = S (S (reads w))
        /\ slept w' = PyInt 1 :: slept w)
  /\ (exists r w', process_task BackgroundTaskProcessor task w = (Return r, w')
        /\ clock w' = clock w /\ reads w' = S (S (reads w))
        /\ slept w' = PyFloat 0.1 :: slept w).
Proof.
  repeat split; rewrite process_task_run; eexists _, _;
    (split; [reflexivity|]); cbn; auto.
Qed.

(** X7: the [processing_time] a processor reports is the completion time
    it stored in the task minus the clock reading taken when the call
    started. *)
Theorem processing_time_matches_completed_at (p : TaskProcessor)
    (task : WorkflowTask) (w : World) :
  exists d task' w' done,
    process_task p task w = (Return (d, task'), w')
    /\ completed_at task' = Some done
    /\ d !! "processing_time"
       = Some (VFloat (timestamp done - clock w (reads w))%float).
Proof.
  rewrite process_task_run. eexists _, _, _, _. split; [reflexivity|].
  split; [reflexivity|]. apply result_dict_processing_time.
Qed.

(** X8: [TaskManager.execute_task] raises exactly when the manager holds no
    strategy, and then it raises [ValueError("No strategy set")], reads no
    clock and sleeps not at all; with a strategy it returns what that
    strategy's [process_task] returns. *)
Theorem execute_task_raises_iff (m : TaskManager) (task : WorkflowTask)
    (w : World) :
  (strategy m = None
   <-> execute_task m task w = (Raise (ValueError "No strategy set"), w))
  /\ (strategy m = None <-> exists e w', execute_task m task w = (Raise e, w'))
  /\ (forall p, strategy m = Some p ->
        execute_task m task w = process_task p task w).
Proof.
  unfold execute_task. destruct (strategy m) as [p|].
  - rewrite process_task_run. repeat split; try discriminate.
    + intros (e & w' & [=]).
    + intros q [= <-]. now rewrite process_task_run.
  - repeat split; try discriminate; eauto.
Qed.

(** X8 (witness): a manager built with the standard strategy. *)
Lemma execute_task_raises_iff_witness :
  execute_task (TaskManager_init (Some StandardTaskProcessor)) low_task
    sample_world
  = process_task StandardTaskProcessor low_task sample_world.
Proof.
  apply (proj2 (proj2 (execute_task_raises_iff
                         (TaskManager_init (Some StandardTaskProcessor))
                         low_task sample_world))).
  reflexivity.
Defined.

(** X9: the [strategy_used] entry identifies the processor: two calls that
    report the same tag were made on processors of the same class. *)
Theorem strategy_used_identifies (p1 p2 : TaskProcessor)
    (task1 task2 : WorkflowTask) (w1 w2 : World)
    (d1 d2 : gmap string pyval) (t1 t2 : WorkflowTask) (w1' w2' : World) :
  process_task p1 task1 w1 = (Return (d1, t1), w1') ->
  process_task p2 task2 w2 = (Return (d2, t2), w2') ->
  d1 !! "strategy_used" = d2 !! "strategy_used" ->
  p1 = p2.
Proof.
  rewrite !process_task_run. intros [= <- _ _] [= <- _ _].
  rewrite !result_dict_strategy_used.
  destruct p1, p2; cbn; intros [=]; reflexivity.
Qed.

(** X9 (witness): two background runs on different tasks. *)
Lemma strategy_used_identifies_witness :
  BackgroundTaskProcessor = BackgroundTaskProcessor.
Proof.
  apply (strategy_used_identifies BackgroundTaskProcessor
           BackgroundTaskProcessor low_task urgent_task sample_world
           sample_world _ _ _ _ _ _
           (process_task_run BackgroundTaskProcessor low_task sample_world)
           (process_task_run BackgroundTaskProcessor urgent_task sample_world)).
  reflexivity.
Defined.

(** X10: the four priorities have four different values, so no member of
    [TaskPriority] is an alias of another. *)
Theorem value_inj (p1 p2 : TaskPriority) : value p1 = value p2 -> p1 = p2.
Proof. destruct p1, p2; cbn; intros [=]; reflexivity. Qed.

(** X10 (witness): [HIGH]. *)
Lemma value_inj_witness : HIGH = HIGH.
Proof. apply value_inj. reflexivity. Defined.

(** X11: a task built by [WorkflowTask.__init__] is not completed and
    carries the clock reading of its creation; processed right away, by
    any processor, it keeps that creation time and is completed at the
    second reading after it. *)
Theorem created_then_processed (ttl : string) (prio : TaskPriority)
    (descr : string) (p : TaskProcessor) (w : World) :
  exists task w1 d task' w2,
    WorkflowTask_init ttl prio descr w = (Return task, w1)
    /\ completed_at task = None
    /\ process_task p task w1 = (Return (d, task'), w2)
    /\ created_at task' = {| timestamp := clock w (reads w) |}
    /\ completed_at task'
       = Some {| timestamp := clock w (S (S (reads w))) |}.
Proof.
  eexists _, _, _, _, _. split; [reflexivity|]. split; [reflexivity|].
  rewrite process_task_run. split; [reflexivity|]. split; reflexivity.
Qed.

End StrategyMore.

(* ===================================================================== *)
(** * Further properties of the equipment factory selector *)
(* ===================================================================== *)

Module AbstractFactoryMore.
Import AbstractFactory AbstractFactoryFacts.

Lemma lower_char_idemp (c : ascii) : lower_char (lower_char c) = lower_char c.
Proof. destruct c as [[] [] [] [] [] [] [] []]; reflexivity. Qed.

Lemma lower_idemp (s : string) : lower (lower s) = lower s.
Proof.
  induction s as [|c s IH]; [reflexivity|].
  cbn. now rewrite lower_char_idemp, IH.
Qed.

(** X12: lower-casing the name before the call changes nothing but the
    text of the error: [get_equipment_factory (lower s)] returns a factory
    exactly when [get_equipment_factory s] does, and the same one. *)
Theorem get_equipment_factory_lower (s : string) :
  (forall f, get_equipment_factory (lower s) = Return f
             <-> get_equipment_factory s = Return f)
  /\ ((exists e, get_equipment_factory (lower s) = Raise e)
      <-> (exists e, get_equipment_factory s = Raise e)).
Proof.
  rewrite !get_equipment_factory_cases, lower_idemp.
  repeat case_decide; split; try tauto.
  - intros f. split; intros [=].
  - split; intros _; eauto.
Qed.

(** X13: the only exception [get_equipment_factory] raises is the
    [ValueError] naming its argument, never the [KeyError] of the table
    look-up; and it raises it only for a name whose lower-cased form is
    not a key of the table. *)
Theorem get_equipment_factory_raises_only_ValueError (s : string) (e : exn) :
  get_equipment_factory s = Raise e ->
  e = ValueError ("Unknown character class: " +:+ s)
  /\ charclass_to_factory !! lower s = None.
Proof.
  rewrite get_equipment_factory_cases, lookup_charclass.
  repeat case_decide; intros [=]; auto.
Qed.

(** X13 (witness): the empty name. *)
Lemma get_equipment_factory_raises_only_ValueError_witness :
  ValueError "Unknown character class: "
  = ValueError ("Unknown character class: " +:+ "")
  /\ charclass_to_factory !! lower "" = None.
Proof.
  apply (get_equipment_factory_raises_only_ValueError ""). reflexivity.
Defined.

(** X14: a factory that [get_equipment_factory] returns makes a matched
    family, the weapon and the armor of the class that was named: sword
    and heavy armor for a warrior, staff and light robe for a mage, bow
    and leather armor for an archer. *)
Theorem get_equipment_factory_family (s : string) (f : EquipmentFactory) :
  get_equipment_factory s = Return f ->
  (lower s = "warrior" /\ create_weapon f = Sword
   /\ create_armor f = HeavyArmor)
  \/ (lower s = "mage" /\ create_weapon f = Staff
      /\ create_armor f = LightRobe)
  \/ (lower s = "archer" /\ create_weapon f = Bow
      /\ create_armor f = LeatherArmor).
Proof.
  rewrite get_equipment_factory_cases.
  repeat case_decide; intros [= <-]; auto.
Qed.

(** X14 (witness): ["Archer"]. *)
Lemma get_equipment_factory_family_witness :
  (lower "Archer" = "warrior" /\ create_weapon ArcherEquipmentFactory = Sword
   /\ create_armor ArcherEquipmentFactory = HeavyArmor)
  \/ (lower "Archer" = "mage" /\ create_weapon ArcherEquipmentFactory = Staff
      /\ create_armor ArcherEquipmentFactory = LightRobe)
  \/ (lower "Archer" = "archer" /\ create_weapon ArcherEquipmentFactory = Bow
      /\ create_armor ArcherEquipmentFactory = LeatherArmor).
Proof.
  apply (get_equipment_factory_family "Archer" ArcherEquipmentFactory).
  reflexivity.
Defined.

(** X15: the doctest's thresholds hold for every spelling of a class
    name: whatever factory is returned, its weapon deals at least 40 and
    its armor gives at least 15, and a warrior's deal at least 80 and 50. *)
Theorem equipment_thresholds (s : string) (f : EquipmentFactory) :
  get_equipment_factory s = Return f ->
  40 <= damage (create_weapon f) /\ 15 <= defense (create_armor f)
  /\ (lower s = "warrior" ->
      80 <= damage (create_weapon f) /\ 50 <= defense (create_armor f))
  /\ (lower s = "archer" ->
      60 <= damage (create_weapon f) /\ 25 <= defense (create_armor f)).
Proof.
  rewrite get_equipment_factory_cases.
  repeat case_decide; intros [= <-]; cbn; repeat split; intros; try lia;
    congruence.
Qed.

(** X15 (witness): ["WARRIOR"]. *)
Lemma equipment_thresholds_witness :
  80 <= damage (create_weapon WarriorEquipmentFactory)
  /\ 50 <= defense (create_armor WarriorEquipmentFactory).
Proof.
  apply (proj1 (proj2 (proj2 (equipment_thresholds "WARRIOR"
                                WarriorEquipmentFactory eq_refl)))).
  reflexivity.
Defined.

End AbstractFactoryMore.

(* ===================================================================== *)
(** * Further properties of the database variants *)
(* ===================================================================== *)

Module DipMore.
Import Dip.

Lemma string_app_assoc (s1 s2 s3 : string) :
  (s1 +:+ s2) +:+ s3 = s1 +:+ s2 +:+ s3.
Proof.
  induction s1 as [|c s1 IH]; [reflexivity|].
  change (String c ((s1 +:+ s2) +:+ s3) = String c (s1 +:+ s2 +:+ s3)).
  now rewrite IH.
Qed.

Lemma string_app_length (s1 s2 : string) :
  String.length (s1 +:+ s2) = (String.length s1 + String.length s2)%nat.
Proof.
  induction s1 as [|c s1 IH]; [reflexivity|].
  change (S (String.length (s1 +:+ s2))
          = S (String.length s1 + String.length s2)).
  now rewrite IH.
Qed.

(** Two splittings of one string at the same distance from its start, or
    from its end, are the same splitting. *)
Lemma string_app_inj_head (s1 s2 t1 t2 : string) :
  String.length s1 = String.length s2 ->
  s1 +:+ t1 = s2 +:+ t2 -> s1 = s2 /\ t1 = t2.
Proof.
  revert s2. induction s1 as [|c s1 IH]; intros [|c' s2]; cbn;
    try discriminate; [auto|].
  intros [= Hlen] [= <- Happ]. destruct (IH _ Hlen Happ) as [-> ->]. auto.
Qed.

Lemma string_app_inj_tail (s1 s2 t1 t2 : string) :
  String.length t1 = String.length t2 ->
  s1 +:+ t1 = s2 +:+ t2 -> s1 = s2 /\ t1 = t2.
Proof.
  intros Hlen Happ. apply string_app_inj_head; [|exact Happ].
  apply (f_equal String.length) in Happ.
  rewrite !string_app_length in Happ. lia.
Qed.

(** The message of [save], split before its last five characters. *)
Lemma save_split (V : Database) (key value : string) :
  save V key value
  = ("Saved " +:+ key +:+ ": " +:+ value
     +:+ match V with MySQLDatabase => " to " | _ => " to Postg" end)
    +:+ match V with MySQLDatabase => "MySQL" | _ => "reSQL" end.
Proof.
  destruct V; unfold save; rewrite !string_app_assoc; reflexivity.
Qed.

(** X16: [UserService.save_user] returns the connection message of its
    database, a line feed, and the message of saving the user in that
    database, whichever database it was built with. *)
Theorem save_user_message (svc : UserService) (user_id name : string) :
  save_user svc user_id name
  = "Connected to " +:+ variant_name (database svc) +:+ newline
    +:+ "Saved " +:+ user_id +:+ ": " +:+ name
    +:+ " to " +:+ variant_name (database svc).
Proof. destruct svc as [[]]; reflexivity. Qed.

(** X17: a message tells which database produced it: the messages of
    [connect], of [save] and of [save_user] of the two variants never
    coincide, whatever keys and values are saved. *)
Theorem messages_identify_variant (V1 V2 : Database) :
  (connect V1 = connect V2 -> V1 = V2)
  /\ (forall k1 v1 k2 v2, save V1 k1 v1 = save V2 k2 v2 -> V1 = V2)
  /\ (forall k1 v1 k2 v2,
        save_user {| database := V1 |} k1 v1
        = save_user {| database := V2 |} k2 v2 -> V1 = V2).
Proof.
  split; [|split].
  - destruct V1, V2; intros [=]; reflexivity.
  - intros k1 v1 k2 v2. rewrite !save_split. intros H.
    apply string_app_inj_tail in H as [_ H]; [|now destruct V1, V2].
    destruct V1, V2; first [reflexivity | discriminate H].
  - intros k1 v1 k2 v2. destruct V1, V2; intros [=]; reflexivity.
Qed.

(** X17 (witness): two messages of the MySQL variant. *)
Lemma messages_identify_variant_witness : MySQLDatabase = MySQLDatabase.
Proof.
  apply (proj1 (proj2 (messages_identify_variant MySQLDatabase
                         MySQLDatabase)) "k" "value" "k" "value").
  reflexivity.
Defined.

(** X18: the message of [save] determines the key and the value as soon
    as the length of one of them is known: two calls on the same variant
    with keys of one length, or values of one length, and the same
    message have the same key and the same value. *)
Theorem save_inj (V : Database) (k1 v1 k2 v2 : string) :
  String.length k1 = String.length k2 \/ String.length v1 = String.length v2 ->
  save V k1 v1 = save V k2 v2 ->
  k1 = k2 /\ v1 = v2.
Proof.
  intros Hlen H.
  assert (k1 +:+ ": " +:+ v1 +:+ " to " +:+ variant_name V
          = k2 +:+ ": " +:+ v2 +:+ " to " +:+ variant_name V) as H'.
  { destruct V; cbn in H |- *; now injection H. }
  clear H.
  assert (forall t : string,
            v1 +:+ t = v2 +:+ t -> v1 = v2) as Hcancel.
  { intros t Ht. now destruct (string_app_inj_tail v1 v2 t t eq_refl Ht). }
  destruct Hlen as [Hlen|Hlen].
  - destruct (string_app_inj_head _ _ _ _ Hlen H') as [-> Ht].
    split; [reflexivity|]. apply (Hcancel (" to " +:+ variant_name V)).
    now injection Ht.
  - destruct (string_app_inj_tail k1 k2
                (": " +:+ v1 +:+ " to " +:+ variant_name V)
                (": " +:+ v2 +:+ " to " +:+ variant_name V)) as [-> Ht];
      [|exact H'|].
    + change (S (S (String.length (v1 +:+ " to " +:+ variant_name V)))
              = S (S (String.length (v2 +:+ " to " +:+ variant_name V)))).
      rewrite !string_app_length. lia.
    + split; [reflexivity|]. apply (Hcancel (" to " +:+ variant_name V)).
      now injection Ht.
Qed.

(** X18 (witness): two users with three-letter names. *)
Lemma save_inj_witness : "user1" = "user1" /\ "Bob" = "Bob".
Proof.
  apply (save_inj PostgreSQLDatabase "user1" "Bob" "user1" "Bob");
    [right|]; reflexivity.
Defined.

(** X19: without that, the message of [save] does not determine them: a
    colon and a space in the key or in the value can be read either way,
    so that two different calls give one message. *)
Theorem save_ambiguous (V : Database) (key mid value : string) :
  save V (key +:+ ": " +:+ mid) value = save V key (mid +:+ ": " +:+ value)
  /\ key +:+ ": " +:+ mid ≠ key.
Proof.
  split.
  - destruct V; unfold save; rewrite !string_app_assoc; reflexivity.
  - intros H. apply (f_equal String.length) in H.
    rewrite string_app_length in H.
    change (String.length (": " +:+ mid)) with (S (S (String.length mid))) in H.
    lia.
Qed.

End DipMore.

(* ===================================================================== *)
(** * Further properties of the shape calculator *)
(* ===================================================================== *)

Module OcpMore.
Import Ocp OcpFacts.

(** A sum that comes out as an int was started from an int and met only
    ints. *)
Lemma sum_from_int_inv (xs : list pynum) (acc : pynum) (z : Z) :
  sum_from acc xs = Return (PyInt z) ->
  (exists a, acc = PyInt a) /\ Forall (fun x => exists n, x = PyInt n) xs.
Proof.
  revert acc. induction xs as [|x xs IH]; intros acc; cbn.
  - intros [= ->]. eauto.
  - destruct (py_add acc x) as [acc'|e] eqn:Hadd; cbn; [|discriminate].
    intros H. destruct (IH _ H) as [[a ->] Hxs].
    destruct acc as [a0|f0], x as [n|g]; cbn in Hadd.
    + split; [eauto|]. constructor; eauto.
    + destruct (float_of_int a0); cbn in Hadd; discriminate Hadd.
    + destruct (float_of_int n); cbn in Hadd; discriminate Hadd.
    + discriminate Hadd.
Qed.

Lemma mapM_Return_inv {A B} (f : A -> result B) (l : list A) (k : list B) :
  mapM f l = Return k -> Forall2 (fun x y => f x = Return y) l k.
Proof.
  revert k. induction l as [|x l IH]; intros k; cbn.
  - intros [= <-]. constructor.
  - destruct (f x) as [y|e] eqn:Hx; cbn; [|discriminate].
    destruct (mapM f l) as [k'|e]; cbn; [|discriminate].
    intros [= <-]. constructor; auto.
Qed.

Section Areas.
Variable float_pow : float -> float -> result float.

(** Among the shapes only a square with an int side has an int area. *)
Lemma calculate_area_int_inv (s : Shape) (z : Z) :
  calculate_area float_pow s = Return (PyInt z) ->
  exists n, s = Square (PyInt n) /\ z = n * n.
Proof.
  unfold calculate_area, py_pow, py_mul, py_truediv, to_float, mbind,
    result_bind.
  change (0 <=? 2) with true.
  intros H. repeat case_match; try discriminate H.
  injection H as <-. eexists. split; [reflexivity|]. apply Z.pow_2_r.
Qed.

(** X20: the area of the first shape that fails is the error of the
    whole: when the shapes before [s] have areas and [calculate_area s]
    raises [e], [total_area] raises [e], whatever follows [s]. *)
Theorem total_area_first_error (before after : list Shape) (s : Shape)
    (areas : list pynum) (e : exn) :
  Forall2 (fun s a => calculate_area float_pow s = Return a) before areas ->
  calculate_area float_pow s = Raise e ->
  total_area float_pow (before ++ s :: after) = Raise e.
Proof.
  intros Hbefore Hs. unfold total_area.
  assert (mapM (calculate_area float_pow) (before ++ s :: after) = Raise e)
    as ->; [|reflexivity].
  induction Hbefore as [|s0 a before areas Hs0 _ IH]; cbn.
  - now rewrite Hs.
  - rewrite Hs0. cbn. now rewrite IH.
Qed.

(** X21: totals of lists with int areas add up: the total of two lists put
    together is the sum of the arithmetic sums of their areas. *)
Theorem total_area_app_ints (shapes1 shapes2 : list Shape) (zs1 zs2 : list Z) :
  Forall2 (fun s z => calculate_area float_pow s = Return (PyInt z))
    shapes1 zs1 ->
  Forall2 (fun s z => calculate_area float_pow s = Return (PyInt z))
    shapes2 zs2 ->
  total_area float_pow (shapes1 ++ shapes2)
  = Return (PyInt (foldr Z.add 0 zs1 + foldr Z.add 0 zs2)).
Proof.
  intros H1 H2.
  rewrite (total_area_ints float_pow _ (zs1 ++ zs2));
    [|now apply Forall2_app].
  do 2 f_equal. clear. induction zs1 as [|z zs1 IH]; cbn; lia.
Qed.

(** X22: a square with an int side never fails: its area is the int
    [side * side], which is not negative, and a negative side is taken
    as it is, giving the area of the opposite side. *)
Theorem square_int_area (n : Z) :
  calculate_area float_pow (Square (PyInt n)) = Return (PyInt (n * n))
  /\ 0 <= n * n
  /\ calculate_area float_pow (Square (PyInt (- n)))
     = calculate_area float_pow (Square (PyInt n)).
Proof.
  cbn. rewrite !Z.pow_2_r, Z.mul_opp_opp. repeat split. nia.
Qed.

(** X23: with int arguments the area of a circle does not see the sign
    of the radius, and the area of a triangle is the same when base and
    height are exchanged or both negated. *)
Theorem int_area_symmetries (r b h : Z) :
  calculate_area float_pow (Circle (PyInt (- r)))
  = calculate_area float_pow (Circle (PyInt r))
  /\ calculate_area float_pow (Triangle (PyInt h) (PyInt b))
     = calculate_area float_pow (Triangle (PyInt b) (PyInt h))
  /\ calculate_area float_pow (Triangle (PyInt (- b)) (PyInt (- h)))
     = calculate_area float_pow (Triangle (PyInt b) (PyInt h)).
Proof.
  unfold calculate_area, py_pow, py_mul.
  change (0 <=? 2) with true. cbv iota.
  rewrite !Z.pow_2_r, !Z.mul_opp_opp, (Z.mul_comm h b). repeat split.
Qed.

(** X24: the total is an int only for squares with int sides: when
    [total_area] returns an int, every shape of the list is such a
    square, and the int is the sum of the squares of the sides. *)
Theorem total_area_int_only_squares (shapes : list Shape) (z : Z) :
  total_area float_pow shapes = Return (PyInt z) ->
  exists sides : list Z,
    shapes = (fun n => Square (PyInt n)) <$> sides
    /\ z = foldr Z.add 0 ((fun n => n * n) <$> sides).
Proof.
  unfold total_area.
  destruct (mapM (calculate_area float_pow) shapes) as [areas|e] eqn:Hmap;
    cbn; [|discriminate].
  intros Hsum. apply mapM_Return_inv in Hmap.
  destruct (sum_from_int_inv _ _ _ Hsum) as [_ Hints].
  assert (exists sides : list Z,
            shapes = (fun n => Square (PyInt n)) <$> sides
            /\ areas = PyInt <$> ((fun n => n * n) <$> sides))
    as (sides & -> & ->).
  { clear Hsum. induction Hmap as [|s a shapes areas Hs _ IH].
    - exists []. auto.
    - apply Forall_cons in Hints as [[m ->] Hints].
      destruct (IH Hints) as (sides & -> & ->).
      destruct (calculate_area_int_inv _ _ Hs) as (n & -> & ->).
      exists (n :: sides). auto. }
  exists sides. split; [reflexivity|].
  unfold Py.sum in Hsum. rewrite sum_from_ints in Hsum.
  injection Hsum as <-. lia.
Qed.
(** X25: with int arguments a circle and a triangle have a float area or
    fail with [OverflowError], the circle when its squared radius and the
    triangle when half its product is too large for a float; the division
    by two never fails as a division by zero. *)
Theorem int_circle_triangle_float_or_overflow (r b h : Z) :
  ((exists f, calculate_area float_pow (Circle (PyInt r)) = Return (PyFloat f))
   \/ calculate_area float_pow (Circle (PyInt r))
      = Raise (OverflowError "int too large to convert to float"))
  /\ ((exists f, calculate_area float_pow (Triangle (PyInt b) (PyInt h))
                 = Return (PyFloat f))
      \/ calculate_area float_pow (Triangle (PyInt b) (PyInt h))
         = Raise (OverflowError
                    "integer division result too large for a float")).
Proof.
  split.
  - unfold calculate_area, py_pow. change (0 <=? 2) with true. cbn.
    unfold float_of_int. destruct (is_infinity _); cbn; eauto.
  - unfold calculate_area, py_mul, py_truediv, int_true_divide.
    change (2 =? 0) with false. cbv iota zeta. cbn [mbind result_bind].
    destruct (is_infinity _); cbn; eauto.
Qed.
End Areas.

(** X20 (witness): a circle too large for a float, between two shapes. *)
Lemma total_area_first_error_witness :
  total_area (fun a _ => Return (a * a)%float)
    ([Square (PyInt 2)] ++ Circle (PyInt (2 ^ 600))
       :: [Triangle (PyInt 3) (PyInt 4)])
  = Raise (OverflowError "int too large to convert to float").
Proof.
  apply (total_area_first_error (fun a _ => Return (a * a)%float)
           [Square (PyInt 2)] [Triangle (PyInt 3) (PyInt 4)]
           (Circle (PyInt (2 ^ 600))) [PyInt 4]).
  - repeat constructor.
  - vm_compute. reflexivity.
Defined.

(** X21 (witness): one square and two squares. *)
Lemma total_area_app_ints_witness :
  total_area (fun a _ => Return (a * a)%float)
    ([Square (PyInt 1)] ++ [Square (PyInt 2); Square (PyInt 3)])
  = Return (PyInt (foldr Z.add 0 [1] + foldr Z.add 0 [4; 9])).
Proof.
  apply (total_area_app_ints (fun a _ => Return (a * a)%float));
    repeat constructor.
Defined.

(** X24 (witness): two squares. *)
Lemma total_area_int_only_squares_witness :
  exists sides : list Z,
    [Square (PyInt 3); Square (PyInt 4)] = (fun n => Square (PyInt n)) <$> sides
    /\ 25 = foldr Z.add 0 ((fun n => n * n) <$> sides).
Proof.
  apply (total_area_int_only_squares (fun a _ => Return (a * a)%float)).
  reflexivity.
Defined.

End OcpMore.
